(** * VotingKeyLinkV1Transaction

    A shallow embedding of
    [src/model/transaction/VotingKeyLinkV1Transaction.ts] and the properties
    its specification states about it.

    The class maps typed fields to and from the generated builders of the
    catbuffer codec.  The codec, the hex conversion, the account and address
    utilities and the base [Transaction] class live outside the file; they
    appear here as type classes ([Domain], [Services]) whose contracts
    ([Contract], [RoundTrip]) are what the specification says of them.  A
    reference implementation of the classes, with a byte-level codec
    following the wire layout of the specification, meets the contracts and
    runs the embedded code on concrete payloads. *)

From Stdlib Require Import ZArith List Bool String Ascii Lia.
From Stdlib.Strings Require Import Byte.
Import ListNotations.

Local Open Scope Z_scope.

Set Implicit Arguments.

(** ** Primitive data *)

(** A [Uint8Array]. *)
Definition bytes := list byte.

(** TypeScript numeric enums are numbers at run time and [valueOf()] is the
    identity on them. *)
Definition NetworkType := Z.
Definition LinkAction := Z.

(** The [number[]] a 64-bit value travels as between the model and the
    builders: [[lower, higher]]. *)
Definition uint64_dto := (Z * Z)%type.

(** Modelled from the spec: [UInt64], the "64-bit unsigned integer" of the
    data model, is not part of the source file.  The source builds it from a
    two-number array ([new UInt64([0, 0])], [new UInt64(fee.amount)]) and
    turns it back with [toDTO()]. *)
Record UInt64 := { lower : Z; higher : Z }.

Definition UInt64_new (a : uint64_dto) : UInt64 :=
  {| lower := fst a; higher := snd a |}.

Definition UInt64_toDTO (u : UInt64) : uint64_dto := (lower u, higher u).

Definition UInt64_value (u : UInt64) : Z := higher u * 2 ^ 32 + lower u.

(** ** Errors *)

Inductive result (E A : Type) : Type :=
| Ok (a : A)
| Err (e : E).

Arguments Ok {E A} a.
Arguments Err {E A} e.

Definition bind {E A B} (r : result E A) (k : A -> result E B) : result E B :=
  match r with
  | Ok a => k a
  | Err e => Err e
  end.

(** What [createFromPayload] can fail with: the error [Convert.hexToUint8]
    throws, a decode error of the codec, the error [Deadline.createFromDTO]
    throws. *)
Inductive Failure (DecodeError : Type) : Type :=
| ConvertError
| CodecError (e : DecodeError)
| DeadlineError.

Arguments ConvertError {DecodeError}.
Arguments CodecError {DecodeError} e.
Arguments DeadlineError {DecodeError}.

Definition fmap {E A B} (f : A -> B) (r : result E A) : result E B :=
  bind r (fun a => Ok (f a)).

Notation "'let*' x ':=' r 'in' k" := (bind r (fun x => k))
  (at level 10, x name, r at level 100, k at level 200).

(** ** The regular expression [^[0]+$]

    [s.match(`^[0]+$`)] is truthy exactly when [s] is a non-empty run of the
    character [0]. *)

Fixpoint only_zero_chars (s : string) : bool :=
  match s with
  | EmptyString => true
  | String c rest => Ascii.eqb c "0" && only_zero_chars rest
  end.

Definition match_zeros (s : string) : bool :=
  match s with
  | EmptyString => false
  | String _ _ => only_zero_chars s
  end.

(** ** Builders of the codec

    The field order of each record is the parameter order of the builder's
    constructor, so that [Build_...] applied positionally is the [new ...]
    of the source.  The DTO wrappers ([AmountDto], [KeyDto], ...) hold one
    value each and are modelled by that value. *)

Record VotingKeyLinkV1TransactionBuilder := {
  sb_signature : bytes;
  sb_signerPublicKey : bytes;
  sb_version : Z;
  sb_network : Z;
  sb_type : Z;
  sb_fee : uint64_dto;
  sb_deadline : uint64_dto;
  sb_linkedPublicKey : bytes;
  sb_startEpoch : Z;
  sb_endEpoch : Z;
  sb_linkAction : Z
}.

Record EmbeddedVotingKeyLinkV1TransactionBuilder := {
  eb_signerPublicKey : bytes;
  eb_version : Z;
  eb_network : Z;
  eb_type : Z;
  eb_linkedPublicKey : bytes;
  eb_startEpoch : Z;
  eb_endEpoch : Z;
  eb_linkAction : Z
}.

(** What [loadFromBinary] hands back in [createFromPayload]: one of the two
    builders, chosen by [isEmbedded]. *)
Inductive Builder :=
| StandaloneBuilder (b : VotingKeyLinkV1TransactionBuilder)
| EmbeddedBuilder (b : EmbeddedVotingKeyLinkV1TransactionBuilder).

Definition getSignerPublicKey (b : Builder) : bytes :=
  match b with
  | StandaloneBuilder s => sb_signerPublicKey s
  | EmbeddedBuilder e => eb_signerPublicKey e
  end.

Definition getNetwork (b : Builder) : Z :=
  match b with
  | StandaloneBuilder s => sb_network s
  | EmbeddedBuilder e => eb_network e
  end.

Definition getLinkedPublicKey (b : Builder) : bytes :=
  match b with
  | StandaloneBuilder s => sb_linkedPublicKey s
  | EmbeddedBuilder e => eb_linkedPublicKey e
  end.

Definition getStartEpoch (b : Builder) : Z :=
  match b with
  | StandaloneBuilder s => sb_startEpoch s
  | EmbeddedBuilder e => eb_startEpoch e
  end.

Definition getEndEpoch (b : Builder) : Z :=
  match b with
  | StandaloneBuilder s => sb_endEpoch s
  | EmbeddedBuilder e => eb_endEpoch e
  end.

Definition getLinkAction (b : Builder) : Z :=
  match b with
  | StandaloneBuilder s => sb_linkAction s
  | EmbeddedBuilder e => eb_linkAction e
  end.

(** Two builders that hold the same fields, the version apart. *)
Definition standalone_agree (b b' : VotingKeyLinkV1TransactionBuilder)
  : Prop :=
  sb_signature b' = sb_signature b
  /\ sb_signerPublicKey b' = sb_signerPublicKey b
  /\ sb_network b' = sb_network b
  /\ sb_type b' = sb_type b
  /\ sb_fee b' = sb_fee b
  /\ sb_deadline b' = sb_deadline b
  /\ sb_linkedPublicKey b' = sb_linkedPublicKey b
  /\ sb_startEpoch b' = sb_startEpoch b
  /\ sb_endEpoch b' = sb_endEpoch b
  /\ sb_linkAction b' = sb_linkAction b.

Definition embedded_agree (b b' : EmbeddedVotingKeyLinkV1TransactionBuilder)
  : Prop :=
  eb_signerPublicKey b' = eb_signerPublicKey b
  /\ eb_network b' = eb_network b
  /\ eb_type b' = eb_type b
  /\ eb_linkedPublicKey b' = eb_linkedPublicKey b
  /\ eb_startEpoch b' = eb_startEpoch b
  /\ eb_endEpoch b' = eb_endEpoch b
  /\ eb_linkAction b' = eb_linkAction b.

(** The arguments of a builder's constructor, as values. *)
Inductive BuilderArg :=
| SignatureDto (signature : bytes)
| KeyDto (key : bytes)
| Num (n : Z)
| AmountDto (amount : uint64_dto)
| TimestampDto (timestamp : uint64_dto)
| VotingKeyV1Dto (votingKeyV1 : bytes)
| FinalizationEpochDto (finalizationEpoch : Z).

(** The constructor arguments a builder was made from, first to last. *)
Definition standalone_args (b : VotingKeyLinkV1TransactionBuilder)
  : list BuilderArg :=
  let (a1, a2, a3, a4, a5, a6, a7, a8, a9, a10, a11) := b in
  [SignatureDto a1; KeyDto a2; Num a3; Num a4; Num a5; AmountDto a6;
   TimestampDto a7; VotingKeyV1Dto a8; FinalizationEpochDto a9;
   FinalizationEpochDto a10; Num a11].

Definition embedded_args (b : EmbeddedVotingKeyLinkV1TransactionBuilder)
  : list BuilderArg :=
  let (a1, a2, a3, a4, a5, a6, a7, a8) := b in
  [KeyDto a1; Num a2; Num a3; Num a4; VotingKeyV1Dto a5;
   FinalizationEpochDto a6; FinalizationEpochDto a7; Num a8].

(** ** The collaborators *)

(** The utilities and constants the source imports, over the SDK's types
    [Address], [PublicAccount] and [Deadline]: the address and account
    factories, the [Deadline] conversions, [Convert], and the constants
    [TransactionVersion.VOTING_KEY_LINK_V1] and
    [TransactionType.VOTING_KEY_LINK].

    [Convert.hexToUint8] and [Deadline.createFromDTO] throw on some
    arguments: text that is not hex text of even length, a timestamp out of
    the range of a deadline.  Each is held as the test of the arguments it accepts
    ([hexToUint8_accepts], [Deadline_createFromDTO_accepts]) and its value
    on those.  [PublicAccount.createFromPublicKey] is only ever given, by
    [createFromPayload], the hex text of the fixed-length key the codec
    decoded. *)
Class Domain (Address PublicAccount Deadline : Type) := {
  Address_createFromPublicKey : string -> NetworkType -> Address;
  Address_equals : Address -> Address -> bool;
  PublicAccount_createFromPublicKey : string -> NetworkType -> PublicAccount;
  Deadline_createEmtpy : Deadline;
  Deadline_createFromDTO_accepts : uint64_dto -> bool;
  Deadline_createFromDTO : uint64_dto -> Deadline;
  Deadline_toDTO : Deadline -> uint64_dto;
  hexToUint8_accepts : string -> bool;
  hexToUint8 : string -> bytes;
  uint8ToHex : bytes -> string;
  VOTING_KEY_LINK_V1 : Z;
  VOTING_KEY_LINK : Z
}.

Section Model.

Context {Address PublicAccount TransactionInfo Deadline : Type}.
Context {D : Domain Address PublicAccount Deadline}.

(** The fields of the base class, in the parameter order of the [super(...)]
    call of the constructor. *)
Record Transaction := {
  type : Z;
  networkType : NetworkType;
  version : Z;
  deadline : Deadline;
  maxFee : UInt64;
  signature : option string;
  signer : option PublicAccount;
  transactionInfo : option TransactionInfo
}.

Record VotingKeyLinkV1Transaction := {
  base : Transaction;
  linkedPublicKey : string;
  startEpoch : Z;
  endEpoch : Z;
  linkAction : LinkAction
}.

(** Modelled from the spec: [toAggregate] belongs to the base class, which is
    not part of the source file.  The specification has it wrap the instance
    "into an inner transaction form bound to the signer account". *)
Record InnerTransaction := {
  inner : VotingKeyLinkV1Transaction;
  boundSigner : PublicAccount
}.

Definition toAggregate (tx : VotingKeyLinkV1Transaction) (s : PublicAccount)
  : InnerTransaction :=
  {| inner := tx; boundSigner := s |}.

(** [Transaction | InnerTransaction], the return type of
    [createFromPayload]. *)
Inductive Parsed :=
| Standalone (tx : VotingKeyLinkV1Transaction)
| Inner (itx : InnerTransaction).

Definition parsed_transaction (p : Parsed) : VotingKeyLinkV1Transaction :=
  match p with
  | Standalone tx => tx
  | Inner itx => inner itx
  end.

(** The signer of the value [createFromPayload] returns: the transaction's
    own for the standalone form, and for an inner transaction the account
    [toAggregate] bound it to. *)
Definition returned_signer (p : Parsed) : option PublicAccount :=
  match p with
  | Standalone tx => signer (base tx)
  | Inner itx => Some (boundSigner itx)
  end.

(** The inherited services of the base class and the two schemas of the
    codec, whose decode errors are of type [DecodeError]. *)
Class Services (DecodeError : Type) := {
  isSigned : Transaction -> Address -> bool;
  getSignatureAsBuilder : Transaction -> bytes;
  getSignerAsBuilder : Transaction -> bytes;
  versionToDTO : Transaction -> Z;
  getSignatureFromPayload : string -> bool -> option string;
  standalone_serialize : VotingKeyLinkV1TransactionBuilder -> bytes;
  standalone_loadFromBinary :
    bytes -> result DecodeError VotingKeyLinkV1TransactionBuilder;
  standalone_encodable : VotingKeyLinkV1TransactionBuilder -> bool;
  embedded_serialize : EmbeddedVotingKeyLinkV1TransactionBuilder -> bytes;
  embedded_loadFromBinary :
    bytes -> result DecodeError EmbeddedVotingKeyLinkV1TransactionBuilder;
  embedded_encodable : EmbeddedVotingKeyLinkV1TransactionBuilder -> bool
}.

Context {DecodeError : Type} {S : Services DecodeError}.

(** ** The class *)

(** [constructor]: the eleven parameters, [transactionInfo] last and
    optional; [super] receives [TransactionType.VOTING_KEY_LINK] first. *)
Definition constructor
    (networkType : NetworkType) (version : Z) (deadline : Deadline)
    (maxFee : UInt64) (linkedPublicKey : string) (startEpoch endEpoch : Z)
    (linkAction : LinkAction) (signature : option string)
    (signer : option PublicAccount)
    (transactionInfo : option TransactionInfo)
  : VotingKeyLinkV1Transaction :=
  {| base := {| type := VOTING_KEY_LINK;
                networkType := networkType;
                version := version;
                deadline := deadline;
                maxFee := maxFee;
                signature := signature;
                signer := signer;
                transactionInfo := transactionInfo |};
     linkedPublicKey := linkedPublicKey;
     startEpoch := startEpoch;
     endEpoch := endEpoch;
     linkAction := linkAction |}.

(** [create]: an omitted [maxFee] is [None] and takes the default
    [new UInt64([0, 0])]; the constructor is called with ten arguments, so
    its [transactionInfo] is [undefined]. *)
Definition create
    (deadline : Deadline) (linkedPublicKey : string) (startEpoch endEpoch : Z)
    (linkAction : LinkAction) (networkType : NetworkType)
    (maxFee : option UInt64) (signature : option string)
    (signer : option PublicAccount)
  : VotingKeyLinkV1Transaction :=
  let maxFee :=
    match maxFee with
    | Some fee => fee
    | None => UInt64_new (0, 0)
    end in
  constructor networkType VOTING_KEY_LINK_V1 deadline maxFee linkedPublicKey
    startEpoch endEpoch linkAction signature signer None.

(** The builder behind [createFromPayload]:
    [isEmbedded ? Embedded...Builder.loadFromBinary(...) :
    ...Builder.loadFromBinary(...)]. *)
Definition loadFromBinary (isEmbedded : bool) (data : bytes)
  : result DecodeError Builder :=
  if isEmbedded
  then fmap EmbeddedBuilder (embedded_loadFromBinary data)
  else fmap StandaloneBuilder (standalone_loadFromBinary data).

(** The body of [createFromPayload] once the builder is loaded.  The source
    reads [getDeadline()] and [fee] behind a cast that is only reached when
    [isEmbedded] is false, that is, on the standalone builder; the match on
    the builder is that branch. *)
Definition fromBuilder (payload : string) (isEmbedded : bool)
    (builder : Builder) : Parsed :=
  let signerPublicKey := uint8ToHex (getSignerPublicKey builder) in
  let networkType := getNetwork builder in
  let signature := getSignatureFromPayload payload isEmbedded in
  let transaction :=
    create
      (match builder with
       | EmbeddedBuilder _ => Deadline_createEmtpy
       | StandaloneBuilder b => Deadline_createFromDTO (sb_deadline b)
       end)
      (uint8ToHex (getLinkedPublicKey builder))
      (getStartEpoch builder)
      (getEndEpoch builder)
      (getLinkAction builder)
      networkType
      (Some match builder with
            | EmbeddedBuilder _ => UInt64_new (0, 0)
            | StandaloneBuilder b => UInt64_new (sb_fee b)
            end)
      signature
      (if match_zeros signerPublicKey
       then None
       else Some (PublicAccount_createFromPublicKey signerPublicKey
                    networkType)) in
  match builder with
  | EmbeddedBuilder _ =>
      Inner (toAggregate transaction
               (PublicAccount_createFromPublicKey signerPublicKey
                  networkType))
  | StandaloneBuilder _ => Standalone transaction
  end.

(** [Deadline.createFromDTO] is called on the standalone builder's
    timestamp only. *)
Definition deadline_accepted (builder : Builder) : bool :=
  match builder with
  | EmbeddedBuilder _ => true
  | StandaloneBuilder b => Deadline_createFromDTO_accepts (sb_deadline b)
  end.

(** [createFromPayload] catches nothing: [Convert.hexToUint8(payload)] is
    evaluated first, then [loadFromBinary], then the arguments of [create],
    and what any of them throws is what the call throws. *)
Definition createFromPayload (payload : string) (isEmbedded : bool)
  : result (Failure DecodeError) Parsed :=
  if hexToUint8_accepts payload
  then
    match loadFromBinary isEmbedded (hexToUint8 payload) with
    | Err e => Err (CodecError e)
    | Ok builder =>
        if deadline_accepted builder
        then Ok (fromBuilder payload isEmbedded builder)
        else Err DeadlineError
    end
  else Err ConvertError.

Definition createBuilder (tx : VotingKeyLinkV1Transaction)
  : VotingKeyLinkV1TransactionBuilder :=
  Build_VotingKeyLinkV1TransactionBuilder
    (getSignatureAsBuilder (base tx))
    (getSignerAsBuilder (base tx))
    (versionToDTO (base tx))
    (networkType (base tx))
    VOTING_KEY_LINK
    (UInt64_toDTO (maxFee (base tx)))
    (Deadline_toDTO (deadline (base tx)))
    (hexToUint8 (linkedPublicKey tx))
    (startEpoch tx)
    (endEpoch tx)
    (linkAction tx).

Definition toEmbeddedTransaction (tx : VotingKeyLinkV1Transaction)
  : EmbeddedVotingKeyLinkV1TransactionBuilder :=
  Build_EmbeddedVotingKeyLinkV1TransactionBuilder
    (getSignerAsBuilder (base tx))
    (versionToDTO (base tx))
    (networkType (base tx))
    VOTING_KEY_LINK
    (hexToUint8 (linkedPublicKey tx))
    (startEpoch tx)
    (endEpoch tx)
    (linkAction tx).

Definition resolveAliases (tx : VotingKeyLinkV1Transaction)
  : VotingKeyLinkV1Transaction := tx.

Definition shouldNotifyAccount (tx : VotingKeyLinkV1Transaction)
    (address : Address) : bool :=
  isSigned (base tx) address
  || Address_equals
       (Address_createFromPublicKey (linkedPublicKey tx)
          (networkType (base tx)))
       address.

(** [serialize()] of the base class and its embedded counterpart: the hex
    text of the bytes the builder serializes to.

    Modelled from the spec: the base class is not part of the source file;
    the specification has the instance produce "a canonical binary encoding
    (standalone or embedded-in-aggregate form)" through [encode(fields,
    schema)], and [createFromPayload] takes that encoding as hex text. *)
Definition serialize (tx : VotingKeyLinkV1Transaction) : string :=
  uint8ToHex (standalone_serialize (createBuilder tx)).

Definition serializeEmbedded (tx : VotingKeyLinkV1Transaction) : string :=
  uint8ToHex (embedded_serialize (toEmbeddedTransaction tx)).

(** ** What the specification says of the collaborators *)

(** A zero byte. *)
Definition is_zero_byte (b : byte) : Prop := b = x00.

(** - [Convert]: decoding the hex text of a byte string gives the byte string
      back, and the hex text of a non-empty byte string consists of the
      character [0] alone exactly when every byte is zero;
    - codec: a decoded signer key, being of fixed length, is not empty. *)
Class Contract : Prop := {
  hexToUint8_uint8ToHex : forall data, hexToUint8 (uint8ToHex data) = data;
  uint8ToHex_zeros :
    forall data, data <> [] ->
      (match_zeros (uint8ToHex data) = true <-> Forall is_zero_byte data);
  decoded_signer_fixed_length :
    forall isEmbedded data b, loadFromBinary isEmbedded data = Ok b ->
      getSignerPublicKey b <> []
}.

(** What a round trip through the wire needs besides:
    - [Convert]: the hex text it writes is text [hexToUint8] accepts;
    - codec: [decode(encode(fields))] succeeds and gives the fields back,
      for the fields the schema can carry.  The version is left out: the
      builder receives whatever [versionToDTO()] returns, and that need not
      fit the field that holds it on the wire;
    - [Deadline]: a deadline whose DTO [createFromDTO] accepts survives the
      conversion to the DTO and back. *)
Class RoundTrip : Prop := {
  uint8ToHex_accepted :
    forall data, hexToUint8_accepts (uint8ToHex data) = true;
  standalone_decode_encode :
    forall b, standalone_encodable b = true ->
      exists b',
        standalone_loadFromBinary (standalone_serialize b) = Ok b'
        /\ standalone_agree b b';
  embedded_decode_encode :
    forall b, embedded_encodable b = true ->
      exists b',
        embedded_loadFromBinary (embedded_serialize b) = Ok b'
        /\ embedded_agree b b';
  Deadline_createFromDTO_toDTO :
    forall d, Deadline_createFromDTO_accepts (Deadline_toDTO d) = true ->
      Deadline_createFromDTO (Deadline_toDTO d) = d
}.

(** The [maxFee] a call of [create] works with. *)
Definition maxFee_or_default (maxFee : option UInt64) : UInt64 :=
  match maxFee with
  | Some fee => fee
  | None => UInt64_new (0, 0)
  end.

(** The fields of the wire format, and the constructor argument each one
    travels as. *)
Inductive Field :=
| FSignature | FSignerPublicKey | FVersion | FNetwork | FTypeTag | FMaxFee
| FDeadline | FLinkedPublicKey | FStartEpoch | FEndEpoch | FLinkAction.

Definition field_arg (tx : VotingKeyLinkV1Transaction) (f : Field)
  : BuilderArg :=
  match f with
  | FSignature => SignatureDto (getSignatureAsBuilder (base tx))
  | FSignerPublicKey => KeyDto (getSignerAsBuilder (base tx))
  | FVersion => Num (versionToDTO (base tx))
  | FNetwork => Num (networkType (base tx))
  | FTypeTag => Num VOTING_KEY_LINK
  | FMaxFee => AmountDto (UInt64_toDTO (maxFee (base tx)))
  | FDeadline => TimestampDto (Deadline_toDTO (deadline (base tx)))
  | FLinkedPublicKey => VotingKeyV1Dto (hexToUint8 (linkedPublicKey tx))
  | FStartEpoch => FinalizationEpochDto (startEpoch tx)
  | FEndEpoch => FinalizationEpochDto (endEpoch tx)
  | FLinkAction => Num (linkAction tx)
  end.

Definition standalone_order : list Field :=
  [FSignature; FSignerPublicKey; FVersion; FNetwork; FTypeTag; FMaxFee;
   FDeadline; FLinkedPublicKey; FStartEpoch; FEndEpoch; FLinkAction].

Definition standalone_only (f : Field) : bool :=
  match f with
  | FSignature | FMaxFee | FDeadline => true
  | _ => false
  end.

Definition embedded_order : list Field :=
  filter (fun f => negb (standalone_only f)) standalone_order.

End Model.

Arguments Transaction : clear implicits.
Arguments VotingKeyLinkV1Transaction : clear implicits.
Arguments Parsed : clear implicits.
Arguments Services : clear implicits.

(** ** A reference implementation of the collaborators

    Hex text as [Convert] writes and reads it, an address held as the key and
    network it derives from, and a codec for the wire layout of the
    specification: fixed-width fields, integers little-endian, the
    standalone form

    [[signature 64][signer 32][version 1][network 1][type 2][max fee 8]
     [deadline 8][linked key 48][start epoch 4][end epoch 4][link action 1]]

    and the embedded form without signature, max fee and deadline. *)

Definition Z_of_byte (b : byte) : Z := Z.of_N (Byte.to_N b).

Definition byte_of_Z (z : Z) : byte :=
  match Byte.of_N (Z.to_N z) with
  | Some b => b
  | None => x00
  end.

Definition hex_char (n : Z) : ascii :=
  if n <? 10
  then ascii_of_N (Z.to_N (48 + n))
  else ascii_of_N (Z.to_N (55 + n)).

(** The value of a hex digit of either case.  On text that
    [ref_hexToUint8_accepts] rejects, where [Convert.hexToUint8] throws, the
    value is immaterial: any other character counts as zero and a last
    unpaired character is dropped. *)
Definition hex_value (c : ascii) : Z :=
  let n := Z.of_N (N_of_ascii c) in
  if (48 <=? n) && (n <=? 57) then n - 48
  else if (65 <=? n) && (n <=? 70) then n - 55
  else if (97 <=? n) && (n <=? 102) then n - 87
  else 0.

Fixpoint ref_uint8ToHex (data : bytes) : string :=
  match data with
  | [] => EmptyString
  | b :: rest =>
      String (hex_char (Z_of_byte b / 16))
        (String (hex_char (Z_of_byte b mod 16)) (ref_uint8ToHex rest))
  end.

Fixpoint ref_hexToUint8 (s : string) : bytes :=
  match s with
  | String hi (String lo rest) =>
      byte_of_Z (16 * hex_value hi + hex_value lo) :: ref_hexToUint8 rest
  | _ => []
  end.

Definition is_hex_char (c : ascii) : bool :=
  let n := Z.of_N (N_of_ascii c) in
  ((48 <=? n) && (n <=? 57)) || ((65 <=? n) && (n <=? 70))
  || ((97 <=? n) && (n <=? 102)).

(** Hex text of even length. *)
Fixpoint ref_hexToUint8_accepts (s : string) : bool :=
  match s with
  | EmptyString => true
  | String hi (String lo rest) =>
      is_hex_char hi && is_hex_char lo && ref_hexToUint8_accepts rest
  | String _ EmptyString => false
  end.

Definition ref_Address := (string * NetworkType)%type.

(** A public account is the key and network it was made from. *)
Definition ref_PublicAccount := (string * NetworkType)%type.

Definition ref_Address_equals (a b : ref_Address) : bool :=
  String.eqb (fst a) (fst b) && Z.eqb (snd a) (snd b).

(** A deadline is its timestamp; the DTO holds the two 32-bit halves. *)
Definition ref_Deadline_toDTO (d : Z) : uint64_dto :=
  (d mod 2 ^ 32, d / 2 ^ 32).

Definition ref_Deadline_createFromDTO (a : uint64_dto) : Z :=
  snd a * 2 ^ 32 + fst a.

(** Two 32-bit halves of a safe integer, one below [2 ^ 53]. *)
Definition ref_Deadline_createFromDTO_accepts (a : uint64_dto) : bool :=
  (0 <=? fst a) && (fst a <? 2 ^ 32) && (0 <=? snd a) && (snd a <? 2 ^ 21).

#[export] Instance ref_domain : Domain ref_Address ref_PublicAccount Z :=
  {| Address_createFromPublicKey := fun key network => (key, network);
     Address_equals := ref_Address_equals;
     PublicAccount_createFromPublicKey := fun key network => (key, network);
     Deadline_createEmtpy := 0;
     Deadline_createFromDTO_accepts := ref_Deadline_createFromDTO_accepts;
     Deadline_createFromDTO := ref_Deadline_createFromDTO;
     Deadline_toDTO := ref_Deadline_toDTO;
     hexToUint8_accepts := ref_hexToUint8_accepts;
     hexToUint8 := ref_hexToUint8;
     uint8ToHex := ref_uint8ToHex;
     VOTING_KEY_LINK_V1 := 1;
     VOTING_KEY_LINK := 16707 |}.

(** *** Fixed-width fields *)

Fixpoint encodeLE (width : nat) (v : Z) : bytes :=
  match width with
  | O => []
  | S w => byte_of_Z (v mod 256) :: encodeLE w (v / 256)
  end.

Fixpoint decodeLE (data : bytes) : Z :=
  match data with
  | [] => 0
  | b :: rest => Z_of_byte b + 256 * decodeLE rest
  end.

Definition fits (width : nat) (v : Z) : bool :=
  (0 <=? v) && (v <? 256 ^ Z.of_nat width).

Inductive ref_DecodeError :=
| Truncated
| TrailingBytes.

(** A reader consumes a prefix of the input. *)
Definition Reader (A : Type) : Type :=
  bytes -> result ref_DecodeError (A * bytes).

Definition read_bytes (width : nat) : Reader bytes :=
  fun data =>
    if (List.length data <? width)%nat
    then Err Truncated
    else Ok (firstn width data, skipn width data).

Definition read_uint (width : nat) : Reader Z :=
  fun data =>
    let* r := read_bytes width data in
    Ok (decodeLE (fst r), snd r).

Definition read_uint64 : Reader uint64_dto :=
  fun data =>
    let* lo := read_uint 4 data in
    let* hi := read_uint 4 (snd lo) in
    Ok ((fst lo, fst hi), snd hi).

Definition finish {A} (a : A) (rest : bytes) : result ref_DecodeError A :=
  match rest with
  | [] => Ok a
  | _ :: _ => Err TrailingBytes
  end.

Definition encode_uint64 (a : uint64_dto) : bytes :=
  encodeLE 4 (fst a) ++ encodeLE 4 (snd a).

Definition fits_uint64 (a : uint64_dto) : bool :=
  fits 4 (fst a) && fits 4 (snd a).

Definition ref_standalone_serialize (b : VotingKeyLinkV1TransactionBuilder)
  : bytes :=
  sb_signature b ++ sb_signerPublicKey b ++ encodeLE 1 (sb_version b)
  ++ encodeLE 1 (sb_network b) ++ encodeLE 2 (sb_type b)
  ++ encode_uint64 (sb_fee b) ++ encode_uint64 (sb_deadline b)
  ++ sb_linkedPublicKey b ++ encodeLE 4 (sb_startEpoch b)
  ++ encodeLE 4 (sb_endEpoch b) ++ encodeLE 1 (sb_linkAction b).

Definition ref_standalone_loadFromBinary (data : bytes)
  : result ref_DecodeError VotingKeyLinkV1TransactionBuilder :=
  let* f1 := read_bytes 64 data in
  let* f2 := read_bytes 32 (snd f1) in
  let* f3 := read_uint 1 (snd f2) in
  let* f4 := read_uint 1 (snd f3) in
  let* f5 := read_uint 2 (snd f4) in
  let* f6 := read_uint64 (snd f5) in
  let* f7 := read_uint64 (snd f6) in
  let* f8 := read_bytes 48 (snd f7) in
  let* f9 := read_uint 4 (snd f8) in
  let* f10 := read_uint 4 (snd f9) in
  let* f11 := read_uint 1 (snd f10) in
  finish
    (Build_VotingKeyLinkV1TransactionBuilder (fst f1) (fst f2) (fst f3)
       (fst f4) (fst f5) (fst f6) (fst f7) (fst f8) (fst f9) (fst f10)
       (fst f11))
    (snd f11).

Definition ref_standalone_encodable (b : VotingKeyLinkV1TransactionBuilder)
  : bool :=
  (List.length (sb_signature b) =? 64)%nat
  && (List.length (sb_signerPublicKey b) =? 32)%nat
  && fits 1 (sb_network b) && fits 2 (sb_type b)
  && fits_uint64 (sb_fee b) && fits_uint64 (sb_deadline b)
  && (List.length (sb_linkedPublicKey b) =? 48)%nat
  && fits 4 (sb_startEpoch b) && fits 4 (sb_endEpoch b)
  && fits 1 (sb_linkAction b).

Definition ref_embedded_serialize
    (b : EmbeddedVotingKeyLinkV1TransactionBuilder) : bytes :=
  eb_signerPublicKey b ++ encodeLE 1 (eb_version b)
  ++ encodeLE 1 (eb_network b) ++ encodeLE 2 (eb_type b)
  ++ eb_linkedPublicKey b ++ encodeLE 4 (eb_startEpoch b)
  ++ encodeLE 4 (eb_endEpoch b) ++ encodeLE 1 (eb_linkAction b).

Definition ref_embedded_loadFromBinary (data : bytes)
  : result ref_DecodeError EmbeddedVotingKeyLinkV1TransactionBuilder :=
  let* f1 := read_bytes 32 data in
  let* f2 := read_uint 1 (snd f1) in
  let* f3 := read_uint 1 (snd f2) in
  let* f4 := read_uint 2 (snd f3) in
  let* f5 := read_bytes 48 (snd f4) in
  let* f6 := read_uint 4 (snd f5) in
  let* f7 := read_uint 4 (snd f6) in
  let* f8 := read_uint 1 (snd f7) in
  finish
    (Build_EmbeddedVotingKeyLinkV1TransactionBuilder (fst f1) (fst f2)
       (fst f3) (fst f4) (fst f5) (fst f6) (fst f7) (fst f8))
    (snd f8).

Definition ref_embedded_encodable
    (b : EmbeddedVotingKeyLinkV1TransactionBuilder) : bool :=
  (List.length (eb_signerPublicKey b) =? 32)%nat
  && fits 1 (eb_network b) && fits 2 (eb_type b)
  && (List.length (eb_linkedPublicKey b) =? 48)%nat
  && fits 4 (eb_startEpoch b) && fits 4 (eb_endEpoch b)
  && fits 1 (eb_linkAction b).

(** *** The base class *)

Definition ref_Transaction := Transaction ref_PublicAccount unit Z.

Definition ref_VotingKeyLinkV1Transaction :=
  VotingKeyLinkV1Transaction ref_PublicAccount unit Z.

Definition ref_Parsed := Parsed ref_PublicAccount unit Z.

(** Signed by [address]: a signature is present and the signer's address is
    [address]. *)
Definition ref_isSigned (tx : ref_Transaction) (address : ref_Address)
  : bool :=
  match signature tx, signer tx with
  | Some _, Some account => ref_Address_equals account address
  | _, _ => false
  end.

Definition ref_getSignatureAsBuilder (tx : ref_Transaction) : bytes :=
  match signature tx with
  | Some s => ref_hexToUint8 s
  | None => repeat x00 64
  end.

Definition ref_getSignerAsBuilder (tx : ref_Transaction) : bytes :=
  match signer tx with
  | Some account => ref_hexToUint8 (fst account)
  | None => repeat x00 32
  end.

(** [(networkType << 8) + version]. *)
Definition ref_versionToDTO (tx : ref_Transaction) : Z :=
  Z.shiftl (networkType tx) 8 + version tx.

(** The signature region of a payload: the first 64 bytes of the standalone
    layout; absent for the embedded form and when it is all zero. *)
Definition ref_getSignatureFromPayload (payload : string) (isEmbedded : bool)
  : option string :=
  let region := substring 0 128 payload in
  if isEmbedded || match_zeros region || String.eqb region EmptyString
  then None
  else Some region.

#[export] Instance ref_services
  : Services ref_Address ref_PublicAccount unit Z ref_DecodeError :=
  {| isSigned := ref_isSigned;
     getSignatureAsBuilder := ref_getSignatureAsBuilder;
     getSignerAsBuilder := ref_getSignerAsBuilder;
     versionToDTO := ref_versionToDTO;
     getSignatureFromPayload := ref_getSignatureFromPayload;
     standalone_serialize := ref_standalone_serialize;
     standalone_loadFromBinary := ref_standalone_loadFromBinary;
     standalone_encodable := ref_standalone_encodable;
     embedded_serialize := ref_embedded_serialize;
     embedded_loadFromBinary := ref_embedded_loadFromBinary;
     embedded_encodable := ref_embedded_encodable |}.

(** *** Sample data *)

Definition sample_key : string :=
  "0123456789ABCDEF0123456789ABCDEF0123456789ABCDEF0123456789ABCDEF0123456789ABCDEF0123456789ABCDEF".

Definition sample_signer_key : string :=
  "9A49366406ACA952B88BADF5F1E9BE6CE4968141035A60BE503273EA65456B24".

Definition sample_signature : string :=
  "11111111111111111111111111111111222222222222222222222222222222223333333333333333333333333333333344444444444444444444444444444444".

Definition sample_fee : UInt64 := {| lower := 2000; higher := 1 |}.

(** A signed transaction, with a fee. *)
Definition sample_tx : ref_VotingKeyLinkV1Transaction :=
  create 4294967296123 sample_key 1 3 1 152
    (Some sample_fee) (Some sample_signature)
    (Some (sample_signer_key, 152)).

(** The same link with nothing but the required arguments. *)
Definition sample_unsigned_tx : ref_VotingKeyLinkV1Transaction :=
  create 77 sample_key 1 3 1 152 None None None.

Definition sample_payload : string :=
  Eval vm_compute in serialize sample_tx.

Definition sample_unsigned_payload : string :=
  Eval vm_compute in serialize sample_unsigned_tx.

Definition sample_embedded_payload : string :=
  Eval vm_compute in serializeEmbedded sample_tx.

Definition sample_unsigned_embedded_payload : string :=
  Eval vm_compute in serializeEmbedded sample_unsigned_tx.



(** A link whose key is given in lower case. *)
Definition sample_lower_key : string :=
  "abcdef0123456789abcdef0123456789abcdef0123456789abcdef0123456789abcdef0123456789abcdef0123456789".

Definition sample_lower_tx : ref_VotingKeyLinkV1Transaction :=
  create 77 sample_lower_key 1 3 1 152 None None None.

Definition sample_lower_parsed : ref_VotingKeyLinkV1Transaction :=
  Eval vm_compute in
    parsed_transaction
      (fromBuilder (serialize sample_lower_tx) false
         (StandaloneBuilder (createBuilder sample_lower_tx))).

(** What the sample payloads parse to. *)
Definition sample_parsed : ref_Parsed :=
  Eval vm_compute in
    fromBuilder sample_payload false
      (StandaloneBuilder (createBuilder sample_tx)).

Definition sample_unsigned_parsed : ref_Parsed :=
  Eval vm_compute in
    fromBuilder sample_unsigned_payload false
      (StandaloneBuilder
         (createBuilder sample_unsigned_tx)).

Definition sample_embedded_parsed : ref_Parsed :=
  Eval vm_compute in
    fromBuilder sample_embedded_payload true
      (EmbeddedBuilder
         (toEmbeddedTransaction sample_tx)).

Definition sample_unsigned_embedded_parsed : ref_Parsed :=
  Eval vm_compute in
    fromBuilder sample_unsigned_embedded_payload true
      (EmbeddedBuilder
         (toEmbeddedTransaction sample_unsigned_tx)).

(** *** Further notions and sample data *)

(** The text made of [n] characters [0]. *)
Fixpoint zeros (n : nat) : string :=
  match n with
  | O => EmptyString
  | S m => String "0" (zeros m)
  end.

(** A builder with other values for the fields [createFromPayload] does not
    read: signature, version and type tag ([sig] has no place in the
    embedded builder). *)
Definition set_header (sig : bytes) (v t : Z) (b : Builder) : Builder :=
  match b with
  | StandaloneBuilder s =>
      StandaloneBuilder
        (Build_VotingKeyLinkV1TransactionBuilder sig (sb_signerPublicKey s) v
           (sb_network s) t (sb_fee s) (sb_deadline s) (sb_linkedPublicKey s)
           (sb_startEpoch s) (sb_endEpoch s) (sb_linkAction s))
  | EmbeddedBuilder e =>
      EmbeddedBuilder
        (Build_EmbeddedVotingKeyLinkV1TransactionBuilder
           (eb_signerPublicKey e) v (eb_network e) t (eb_linkedPublicKey e)
           (eb_startEpoch e) (eb_endEpoch e) (eb_linkAction e))
  end.




(** The builder [sample_unsigned_embedded_payload] decodes to. *)
Definition sample_zero_key_builder : Builder :=
  Eval vm_compute in
    set_header [] 1 16707
      (EmbeddedBuilder (toEmbeddedTransaction sample_unsigned_tx)).



(** * Properties *)

Unset Implicit Arguments.

Section Properties.

Context {Address PublicAccount TransactionInfo Deadline DecodeError : Type}.
Context {D : Domain Address PublicAccount Deadline}.
Context {S : Services Address PublicAccount TransactionInfo Deadline
               DecodeError}.

(** ** Construction *)

(** C6.  [create] called without a [maxFee] argument yields a transaction
    whose [maxFee] is [new UInt64([0, 0])], the 64-bit value zero. *)
Theorem create_default_maxFee :
  forall deadline linkedPublicKey startEpoch endEpoch linkAction networkType
         signature signer,
    let tx :=
      create (TransactionInfo := TransactionInfo) deadline linkedPublicKey
        startEpoch endEpoch linkAction networkType None signature signer in
    maxFee (base tx) = UInt64_new (0, 0) /\ UInt64_value (maxFee (base tx)) = 0.
Proof.
  intros; split; reflexivity.
Qed.

(** C7.  Whatever the arguments, a transaction built by [create] carries the
    version constant [VOTING_KEY_LINK_V1] and the type [VOTING_KEY_LINK]. *)
Theorem create_version_and_type :
  forall deadline linkedPublicKey startEpoch endEpoch linkAction networkType
         maxFee signature signer,
    let tx :=
      create (TransactionInfo := TransactionInfo) deadline linkedPublicKey
        startEpoch endEpoch linkAction networkType maxFee signature signer in
    version (base tx) = VOTING_KEY_LINK_V1 /\ type (base tx) = VOTING_KEY_LINK.
Proof.
  intros; split; reflexivity.
Qed.

(** [createFromPayload] returns only once the payload text was accepted, the
    builder loaded and its timestamp accepted, and its result is then
    [fromBuilder] of that builder. *)
Lemma createFromPayload_returns payload isEmbedded r :
  createFromPayload payload isEmbedded = Ok r ->
  hexToUint8_accepts payload = true
  /\ exists b, loadFromBinary isEmbedded (hexToUint8 payload) = Ok b
               /\ deadline_accepted b = true
               /\ r = fromBuilder payload isEmbedded b.
Proof.
  unfold createFromPayload.
  destruct (hexToUint8_accepts payload); [| discriminate].
  destruct (loadFromBinary isEmbedded (hexToUint8 payload)) as [b | e];
    [| discriminate].
  destruct (deadline_accepted b) eqn:Hd; [| discriminate].
  intros H; split; [reflexivity |].
  exists b; repeat split; congruence.
Qed.

Lemma createFromPayload_Ok payload isEmbedded r :
  createFromPayload payload isEmbedded = Ok r ->
  exists b, loadFromBinary isEmbedded (hexToUint8 payload) = Ok b
            /\ r = fromBuilder payload isEmbedded b.
Proof.
  intros H; apply createFromPayload_returns in H as (_ & b & Hb & _ & Hr).
  exists b; split; assumption.
Qed.

Lemma loadFromBinary_embedded data b :
  loadFromBinary true data = Ok b -> exists e, b = EmbeddedBuilder e.
Proof.
  unfold loadFromBinary, fmap.
  destruct (embedded_loadFromBinary data) as [e | err]; simpl;
    [intros H; exists e; congruence | discriminate].
Qed.

Lemma loadFromBinary_standalone data b :
  loadFromBinary false data = Ok b -> exists s, b = StandaloneBuilder s.
Proof.
  unfold loadFromBinary, fmap.
  destruct (standalone_loadFromBinary data) as [s | err]; simpl;
    [intros H; exists s; congruence | discriminate].
Qed.

(** C10.  Neither [create] nor [createFromPayload] supplies transaction
    metadata: [transactionInfo] is unset on every transaction they return. *)
Theorem transactionInfo_unset :
  (forall deadline linkedPublicKey startEpoch endEpoch linkAction networkType
          maxFee signature signer,
      transactionInfo
        (base (create (TransactionInfo := TransactionInfo) deadline
                 linkedPublicKey startEpoch endEpoch linkAction networkType
                 maxFee signature signer)) = None)
  /\ (forall payload isEmbedded r,
         createFromPayload payload isEmbedded = Ok r ->
         transactionInfo (base (parsed_transaction r)) = None).
Proof.
  split.
  - reflexivity.
  - intros payload isEmbedded r H.
    apply createFromPayload_Ok in H as (b & _ & ->).
    destruct b; reflexivity.
Qed.

(** C4.  Parsed with [isEmbedded = true], a payload yields an inner
    transaction whose [maxFee] is zero and whose deadline is the empty
    deadline, whatever else the payload holds. *)
Theorem createFromPayload_embedded_fee_deadline :
  forall payload r,
    createFromPayload payload true = Ok r ->
    (exists itx, r = Inner itx)
    /\ maxFee (base (parsed_transaction r)) = UInt64_new (0, 0)
    /\ UInt64_value (maxFee (base (parsed_transaction r))) = 0
    /\ deadline (base (parsed_transaction r)) = Deadline_createEmtpy.
Proof.
  intros payload r H.
  apply createFromPayload_Ok in H as (b & Hb & ->).
  apply loadFromBinary_embedded in Hb as (e & ->).
  repeat split. eexists; reflexivity.
Qed.


(** ** Encoding *)

(** C5.  [createBuilder] hands the codec, in this order, signature, signer
    public key, version, network, type tag, max fee, deadline, linked public
    key, start epoch, end epoch and link action; [toEmbeddedTransaction]
    hands it the same sequence without signature, max fee and deadline. *)
Theorem builder_argument_order :
  forall tx,
    standalone_args (createBuilder tx)
    = map (field_arg tx)
        [FSignature; FSignerPublicKey; FVersion; FNetwork; FTypeTag; FMaxFee;
         FDeadline; FLinkedPublicKey; FStartEpoch; FEndEpoch; FLinkAction]
    /\ embedded_args (toEmbeddedTransaction tx)
       = map (field_arg tx)
           [FSignerPublicKey; FVersion; FNetwork; FTypeTag; FLinkedPublicKey;
            FStartEpoch; FEndEpoch; FLinkAction]
    /\ embedded_args (toEmbeddedTransaction tx)
       = map (field_arg tx)
           (filter (fun f => negb (standalone_only f)) standalone_order).
Proof.
  intros tx; repeat split.
Qed.

(** ** Notification *)

(** C3.  [shouldNotifyAccount] holds of an address exactly when the inherited
    signed-by check does or the address derived from [linkedPublicKey] on the
    transaction's network equals it: so it holds of the linked-key address
    whatever the signed-by check says, and fails when neither matches. *)
Theorem shouldNotifyAccount_spec :
  forall tx address,
    let linked :=
      Address_createFromPublicKey (linkedPublicKey tx)
        (networkType (base tx)) in
    (shouldNotifyAccount tx address = true <->
       isSigned (base tx) address = true
       \/ Address_equals linked address = true)
    /\ (Address_equals linked address = true ->
        shouldNotifyAccount tx address = true)
    /\ (isSigned (base tx) address = false ->
        Address_equals linked address = false ->
        shouldNotifyAccount tx address = false).
Proof.
  intros tx address linked; unfold shouldNotifyAccount; fold linked.
  repeat split.
  - apply orb_true_iff.
  - apply orb_true_iff.
  - intros H; rewrite H; apply orb_true_r.
  - intros H1 H2; rewrite H1, H2; reflexivity.
Qed.

(** ** Parsing *)

Section WithContract.

Context {C : Contract (D := D) (S := S)}.

Lemma match_zeros_signer isEmbedded data b :
  loadFromBinary isEmbedded data = Ok b ->
  match_zeros (uint8ToHex (getSignerPublicKey b)) = true
  <-> Forall is_zero_byte (getSignerPublicKey b).
Proof.
  intros H; apply uint8ToHex_zeros.
  exact (decoded_signer_fixed_length _ _ H).
Qed.

(** The signer [fromBuilder] passes to [create]. *)
Lemma fromBuilder_signer payload isEmbedded b :
  signer (base (parsed_transaction (fromBuilder payload isEmbedded b)))
  = if match_zeros (uint8ToHex (getSignerPublicKey b))
    then None
    else Some (PublicAccount_createFromPublicKey
                 (uint8ToHex (getSignerPublicKey b)) (getNetwork b)).
Proof.
  destruct b; reflexivity.
Qed.

(** C2, as the code has it.  Parsed as standalone, a payload whose decoded
    signer public key is all zero gives a transaction without signer, and
    any other key gives the public account made of the decoded key and the
    decoded network type as signer.  Parsed as embedded, the returned inner
    transaction is bound to that public account whatever the key, all zero
    included. *)
Theorem createFromPayload_returned_signer :
  forall payload isEmbedded r,
    createFromPayload payload isEmbedded = Ok r ->
    exists b,
      loadFromBinary isEmbedded (hexToUint8 payload) = Ok b
      /\ (isEmbedded = false ->
          (Forall is_zero_byte (getSignerPublicKey b) ->
           returned_signer r = None)
          /\ (~ Forall is_zero_byte (getSignerPublicKey b) ->
              returned_signer r
              = Some (PublicAccount_createFromPublicKey
                        (uint8ToHex (getSignerPublicKey b)) (getNetwork b))))
      /\ (isEmbedded = true ->
          returned_signer r
          = Some (PublicAccount_createFromPublicKey
                    (uint8ToHex (getSignerPublicKey b)) (getNetwork b))).
Proof.
  intros payload isEmbedded r H.
  apply createFromPayload_Ok in H as (b & Hb & ->).
  exists b; split; [exact Hb |].
  pose proof (match_zeros_signer _ _ _ Hb) as Hz.
  split; intros ->.
  - destruct (loadFromBinary_standalone _ _ Hb) as (s & ->).
    simpl in Hz |- *.
    destruct (match_zeros (uint8ToHex (sb_signerPublicKey s))).
    + split; [reflexivity |].
      intros Hn; exfalso; apply Hn, Hz; reflexivity.
    + split; [| reflexivity].
      intros Hall; apply Hz in Hall; discriminate.
  - destruct (loadFromBinary_embedded _ _ Hb) as (e & ->); reflexivity.
Qed.

(** C9.  Parsed with [isEmbedded = true], a payload yields the transaction
    wrapped by [toAggregate] with the public account of the decoded signer
    key, zero or not; the wrapped transaction's own signer is unset exactly
    when that key is all zero, and the wrapper is then bound to the zero-key
    account. *)
Theorem createFromPayload_embedded_wrapper :
  forall payload r,
    createFromPayload payload true = Ok r ->
    exists b tx,
      loadFromBinary true (hexToUint8 payload) = Ok b
      /\ r = Inner (toAggregate tx
                      (PublicAccount_createFromPublicKey
                         (uint8ToHex (getSignerPublicKey b)) (getNetwork b)))
      /\ (signer (base tx) = None
          <-> Forall is_zero_byte (getSignerPublicKey b)).
Proof.
  intros payload r H.
  apply createFromPayload_Ok in H as (b & Hb & ->).
  pose proof (match_zeros_signer _ _ _ Hb) as Hz.
  destruct (loadFromBinary_embedded _ _ Hb) as (e & ->).
  eexists; eexists; split; [exact Hb |]; split; [reflexivity |].
  simpl in Hz |- *.
  destruct (match_zeros (uint8ToHex (eb_signerPublicKey e))).
  - split; [intros _; apply Hz; reflexivity | reflexivity].
  - split; [discriminate | intros Hall; apply Hz in Hall; discriminate].
Qed.

End WithContract.

(** ** Round trip *)

Section WithRoundTrip.

Context {C : Contract (D := D) (S := S)}.
Context {R : RoundTrip (D := D) (S := S)}.

(** Serializing then parsing, for any transaction and each of the two
    forms. *)
Lemma roundtrip_standalone tx :
  standalone_encodable (createBuilder tx) = true ->
  Deadline_createFromDTO_accepts (Deadline_toDTO (deadline (base tx))) = true ->
  exists tx',
    createFromPayload (serialize tx) false = Ok (Standalone tx')
    /\ linkedPublicKey tx' = uint8ToHex (hexToUint8 (linkedPublicKey tx))
    /\ startEpoch tx' = startEpoch tx
    /\ endEpoch tx' = endEpoch tx
    /\ linkAction tx' = linkAction tx
    /\ networkType (base tx') = networkType (base tx)
    /\ maxFee (base tx') = maxFee (base tx)
    /\ deadline (base tx') = deadline (base tx).
Proof.
  intros Henc Hdeadline.
  destruct (standalone_decode_encode _ Henc) as (b' & Hload & Hagree).
  destruct Hagree
    as (_ & _ & Hnet & _ & Hfee & Hdl & Hkey & Hstart & Hend & Haction).
  simpl in Hnet, Hfee, Hdl, Hkey, Hstart, Hend, Haction.
  unfold createFromPayload, serialize, loadFromBinary, fmap.
  rewrite uint8ToHex_accepted, hexToUint8_uint8ToHex, Hload; simpl.
  eexists; split; [rewrite Hdl, Hdeadline; reflexivity |]; simpl.
  rewrite Hkey, Hstart, Hend, Haction, Hnet, Hfee.
  repeat split.
  - destruct (maxFee (base tx)); reflexivity.
  - apply Deadline_createFromDTO_toDTO; exact Hdeadline.
Qed.

Lemma roundtrip_embedded tx :
  embedded_encodable (toEmbeddedTransaction tx) = true ->
  exists itx,
    createFromPayload (serializeEmbedded tx) true = Ok (Inner itx)
    /\ linkedPublicKey (inner itx)
       = uint8ToHex (hexToUint8 (linkedPublicKey tx))
    /\ startEpoch (inner itx) = startEpoch tx
    /\ endEpoch (inner itx) = endEpoch tx
    /\ linkAction (inner itx) = linkAction tx
    /\ networkType (base (inner itx)) = networkType (base tx).
Proof.
  intros Henc.
  destruct (embedded_decode_encode _ Henc) as (b' & Hload & Hagree).
  destruct Hagree as (_ & Hnet & _ & Hkey & Hstart & Hend & Haction).
  simpl in Hnet, Hkey, Hstart, Hend, Haction.
  unfold createFromPayload, serializeEmbedded, loadFromBinary, fmap.
  rewrite uint8ToHex_accepted, hexToUint8_uint8ToHex, Hload; simpl.
  eexists; split; [reflexivity |]; simpl.
  rewrite Hkey, Hstart, Hend, Haction, Hnet.
  repeat split.
Qed.

(** C1, as the code has it.  A transaction built by [create] from a hex key
    and fields the schema can carry, serialized and parsed back, has the
    [startEpoch], [endEpoch], [linkAction] and [networkType] it was created
    with in either form, and the [maxFee] and [deadline] too in the
    standalone form.  Its [linkedPublicKey] is the hex text [Convert] writes
    for the bytes of the key it was created with: the same key bytes, and
    the same text when the key was given in that form. *)
Theorem create_roundtrip :
  forall deadline0 linkedPublicKey0 startEpoch0 endEpoch0 linkAction0
         networkType0 maxFee0 signature0 signer0,
    let tx :=
      create (TransactionInfo := TransactionInfo) deadline0 linkedPublicKey0
        startEpoch0 endEpoch0 linkAction0 networkType0 maxFee0 signature0
        signer0 in
    hexToUint8_accepts linkedPublicKey0 = true ->
    (standalone_encodable (createBuilder tx) = true ->
     Deadline_createFromDTO_accepts (Deadline_toDTO deadline0) = true ->
     exists tx',
       createFromPayload (serialize tx) false = Ok (Standalone tx')
       /\ linkedPublicKey tx' = uint8ToHex (hexToUint8 linkedPublicKey0)
       /\ hexToUint8 (linkedPublicKey tx') = hexToUint8 linkedPublicKey0
       /\ (uint8ToHex (hexToUint8 linkedPublicKey0) = linkedPublicKey0 ->
           linkedPublicKey tx' = linkedPublicKey0)
       /\ startEpoch tx' = startEpoch0
       /\ endEpoch tx' = endEpoch0
       /\ linkAction tx' = linkAction0
       /\ networkType (base tx') = networkType0
       /\ maxFee (base tx') = maxFee_or_default maxFee0
       /\ deadline (base tx') = deadline0)
    /\ (embedded_encodable (toEmbeddedTransaction tx) = true ->
        exists itx,
          createFromPayload (serializeEmbedded tx) true = Ok (Inner itx)
          /\ linkedPublicKey (inner itx)
             = uint8ToHex (hexToUint8 linkedPublicKey0)
          /\ hexToUint8 (linkedPublicKey (inner itx))
             = hexToUint8 linkedPublicKey0
          /\ (uint8ToHex (hexToUint8 linkedPublicKey0) = linkedPublicKey0 ->
              linkedPublicKey (inner itx) = linkedPublicKey0)
          /\ startEpoch (inner itx) = startEpoch0
          /\ endEpoch (inner itx) = endEpoch0
          /\ linkAction (inner itx) = linkAction0
          /\ networkType (base (inner itx)) = networkType0).
Proof.
  intros deadline0 key0 start0 end0 action0 network0 fee0 sig0 signer0 tx _.
  split.
  - intros Henc Hdeadline.
    destruct (roundtrip_standalone tx Henc Hdeadline)
      as (tx' & Hparse & Hkey & Hstart & Hend & Haction & Hnet & Hfee & Hdl).
    exists tx'; split; [exact Hparse |].
    split; [exact Hkey |].
    split; [rewrite Hkey; apply hexToUint8_uint8ToHex |].
    split; [intros Hform; rewrite Hkey; exact Hform |].
    repeat split; assumption.
  - intros Henc.
    destruct (roundtrip_embedded tx Henc)
      as (itx & Hparse & Hkey & Hstart & Hend & Haction & Hnet).
    exists itx; split; [exact Hparse |].
    split; [exact Hkey |].
    split; [rewrite Hkey; apply hexToUint8_uint8ToHex |].
    split; [intros Hform; rewrite Hkey; exact Hform |].
    repeat split; assumption.
Qed.

End WithRoundTrip.


End Properties.

(** * The reference collaborators meet the contract *)

(** ** Hex text *)

Lemma hex_byte_roundtrip (b : byte) :
  byte_of_Z (16 * hex_value (hex_char (Z_of_byte b / 16))
             + hex_value (hex_char (Z_of_byte b mod 16))) = b.
Proof.
  destruct b; reflexivity.
Qed.

Lemma ref_hexToUint8_uint8ToHex (data : bytes) :
  ref_hexToUint8 (ref_uint8ToHex data) = data.
Proof.
  induction data as [| b rest IH]; [reflexivity |].
  cbn [ref_uint8ToHex ref_hexToUint8].
  rewrite hex_byte_roundtrip, IH; reflexivity.
Qed.

Lemma hex_byte_accepted (b : byte) :
  is_hex_char (hex_char (Z_of_byte b / 16))
  && is_hex_char (hex_char (Z_of_byte b mod 16)) = true.
Proof.
  destruct b; reflexivity.
Qed.

Lemma ref_uint8ToHex_accepted (data : bytes) :
  ref_hexToUint8_accepts (ref_uint8ToHex data) = true.
Proof.
  induction data as [| b rest IH]; [reflexivity |].
  cbn [ref_uint8ToHex ref_hexToUint8_accepts].
  rewrite hex_byte_accepted, IH; reflexivity.
Qed.

Lemma hex_byte_zero (b : byte) :
  Ascii.eqb (hex_char (Z_of_byte b / 16)) "0"
  && Ascii.eqb (hex_char (Z_of_byte b mod 16)) "0" = true
  <-> b = x00.
Proof.
  destruct b; split; intros H; solve [reflexivity | discriminate H].
Qed.

Lemma only_zero_chars_uint8ToHex (data : bytes) :
  only_zero_chars (ref_uint8ToHex data) = true <-> Forall is_zero_byte data.
Proof.
  induction data as [| b rest IH].
  - split; [constructor | reflexivity].
  - cbn [ref_uint8ToHex only_zero_chars].
    rewrite andb_assoc, andb_true_iff, hex_byte_zero, IH.
    split.
    + intros [Hb Hrest]; constructor; assumption.
    + intros H; inversion H; subst; split; assumption.
Qed.

Lemma ref_uint8ToHex_zeros (data : bytes) :
  data <> [] ->
  match_zeros (ref_uint8ToHex data) = true <-> Forall is_zero_byte data.
Proof.
  intros Hne; rewrite <- only_zero_chars_uint8ToHex.
  destruct data as [| b rest]; [contradiction | reflexivity].
Qed.

(** ** Fixed-width integers *)

Lemma Z_of_byte_of_Z (z : Z) : 0 <= z < 256 -> Z_of_byte (byte_of_Z z) = z.
Proof.
  intros Hz; unfold Z_of_byte, byte_of_Z.
  destruct (Byte.of_N (Z.to_N z)) as [b |] eqn:E.
  - apply Byte.to_of_N in E; rewrite E; lia.
  - apply Byte.of_N_None_iff in E; lia.
Qed.

Lemma encodeLE_length (width : nat) (v : Z) :
  List.length (encodeLE width v) = width.
Proof.
  revert v; induction width as [| w IH]; intros v; simpl;
    [reflexivity | rewrite IH; reflexivity].
Qed.

Lemma decodeLE_encodeLE (width : nat) (v : Z) :
  fits width v = true -> decodeLE (encodeLE width v) = v.
Proof.
  unfold fits; revert v; induction width as [| w IH]; intros v Hv;
    apply andb_true_iff in Hv as [Hlo Hhi];
    apply Z.leb_le in Hlo; apply Z.ltb_lt in Hhi.
  - simpl in *; lia.
  - cbn [encodeLE decodeLE].
    rewrite Nat2Z.inj_succ, Z.pow_succ_r in Hhi by lia.
    rewrite Z_of_byte_of_Z by (apply Z.mod_pos_bound; lia).
    rewrite IH.
    + pose proof (Z.div_mod v 256); lia.
    + apply andb_true_iff; split.
      * apply Z.leb_le, Z.div_pos; lia.
      * apply Z.ltb_lt, Z.div_lt_upper_bound; lia.
Qed.

(** ** Readers *)

Lemma firstn_length_app {A} (a rest : list A) :
  firstn (List.length a) (a ++ rest) = a.
Proof.
  induction a as [| x a IH]; simpl; [destruct rest | rewrite IH]; reflexivity.
Qed.

Lemma skipn_length_app {A} (a rest : list A) :
  skipn (List.length a) (a ++ rest) = rest.
Proof.
  induction a as [| x a IH]; simpl; [reflexivity | exact IH].
Qed.

Lemma read_bytes_app (width : nat) (a rest : bytes) :
  List.length a = width -> read_bytes width (a ++ rest) = Ok (a, rest).
Proof.
  intros <-; unfold read_bytes.
  replace (List.length (a ++ rest) <? List.length a)%nat with false.
  - rewrite firstn_length_app, skipn_length_app; reflexivity.
  - symmetry; apply Nat.ltb_ge; rewrite length_app; lia.
Qed.

Lemma read_bytes_length (width : nat) (data a rest : bytes) :
  read_bytes width data = Ok (a, rest) -> List.length a = width.
Proof.
  unfold read_bytes.
  destruct (List.length data <? width)%nat eqn:E; [discriminate |].
  intros H; injection H as <- _.
  apply Nat.ltb_ge in E; apply firstn_length_le; exact E.
Qed.

Lemma read_uint_app (width : nat) (v : Z) (rest : bytes) :
  fits width v = true ->
  read_uint width (encodeLE width v ++ rest) = Ok (v, rest).
Proof.
  intros Hv; unfold read_uint.
  rewrite read_bytes_app by apply encodeLE_length.
  cbn [bind fst snd]; rewrite decodeLE_encodeLE by exact Hv; reflexivity.
Qed.

Lemma read_uint_any (width : nat) (v : Z) (rest : bytes) :
  read_uint width (encodeLE width v ++ rest)
  = Ok (decodeLE (encodeLE width v), rest).
Proof.
  unfold read_uint.
  rewrite read_bytes_app by apply encodeLE_length; reflexivity.
Qed.

Lemma read_uint64_app (a : uint64_dto) (rest : bytes) :
  fits_uint64 a = true ->
  read_uint64 (encode_uint64 a ++ rest) = Ok (a, rest).
Proof.
  destruct a as [lo hi]; unfold fits_uint64, encode_uint64, read_uint64.
  cbn [fst snd]; intros H; apply andb_true_iff in H as [Hlo Hhi].
  rewrite <- app_assoc, read_uint_app by exact Hlo; cbn [bind fst snd].
  rewrite read_uint_app by exact Hhi; reflexivity.
Qed.

(** ** The codec *)

Ltac split_andb H :=
  repeat match type of H with
         | (_ && _ = true) =>
             let H' := fresh "Hfit" in
             apply andb_true_iff in H as [H H']
         end.

Ltac read_field :=
  first [ rewrite read_bytes_app by (apply Nat.eqb_eq; assumption)
        | rewrite read_uint_app by assumption
        | rewrite read_uint64_app by assumption
        | rewrite read_uint_any ];
  cbn [bind fst snd].

Lemma ref_standalone_decode_encode (b : VotingKeyLinkV1TransactionBuilder) :
  ref_standalone_encodable b = true ->
  exists b',
    ref_standalone_loadFromBinary (ref_standalone_serialize b) = Ok b'
    /\ standalone_agree b b'.
Proof.
  destruct b as [a1 a2 a3 a4 a5 a6 a7 a8 a9 a10 a11].
  unfold ref_standalone_encodable, ref_standalone_serialize,
    ref_standalone_loadFromBinary.
  cbn [sb_signature sb_signerPublicKey sb_version sb_network sb_type sb_fee
       sb_deadline sb_linkedPublicKey sb_startEpoch sb_endEpoch sb_linkAction].
  intros H; split_andb H.
  rewrite <- (app_nil_r (encodeLE 1 a11)).
  repeat read_field.
  eexists; split; [reflexivity |].
  repeat split.
Qed.

Lemma ref_embedded_decode_encode
    (b : EmbeddedVotingKeyLinkV1TransactionBuilder) :
  ref_embedded_encodable b = true ->
  exists b',
    ref_embedded_loadFromBinary (ref_embedded_serialize b) = Ok b'
    /\ embedded_agree b b'.
Proof.
  destruct b as [a1 a2 a3 a4 a5 a6 a7 a8].
  unfold ref_embedded_encodable, ref_embedded_serialize,
    ref_embedded_loadFromBinary.
  cbn [eb_signerPublicKey eb_version eb_network eb_type eb_linkedPublicKey
       eb_startEpoch eb_endEpoch eb_linkAction].
  intros H; split_andb H.
  rewrite <- (app_nil_r (encodeLE 1 a8)).
  repeat read_field.
  eexists; split; [reflexivity |].
  repeat split.
Qed.

Lemma bind_Ok {E A B} (r : result E A) (k : A -> result E B) (b : B) :
  bind r k = Ok b -> exists a, r = Ok a /\ k a = Ok b.
Proof.
  destruct r as [a | e]; simpl; [intros H; exists a; auto | discriminate].
Qed.

Lemma key_not_empty (width : nat) (data a rest : bytes) :
  (0 < width)%nat -> read_bytes width data = Ok (a, rest) -> a <> [].
Proof.
  intros Hw H; apply read_bytes_length in H.
  intros ->; simpl in H; lia.
Qed.

Lemma ref_standalone_signer data b :
  ref_standalone_loadFromBinary data = Ok b -> sb_signerPublicKey b <> [].
Proof.
  unfold ref_standalone_loadFromBinary; intros H.
  apply bind_Ok in H as ([f1 r1] & _ & H).
  apply bind_Ok in H as ([f2 r2] & H2 & H).
  repeat (apply bind_Ok in H as (? & _ & H)).
  unfold finish in H.
  match type of H with
  | match ?rest with _ => _ end = _ => destruct rest; [| discriminate]
  end.
  injection H as <-; cbn [sb_signerPublicKey fst].
  eapply key_not_empty; [| exact H2]; lia.
Qed.

Lemma ref_embedded_signer data b :
  ref_embedded_loadFromBinary data = Ok b -> eb_signerPublicKey b <> [].
Proof.
  unfold ref_embedded_loadFromBinary; intros H.
  apply bind_Ok in H as ([f1 r1] & H1 & H).
  repeat (apply bind_Ok in H as (? & _ & H)).
  unfold finish in H.
  match type of H with
  | match ?rest with _ => _ end = _ => destruct rest; [| discriminate]
  end.
  injection H as <-; cbn [eb_signerPublicKey fst].
  eapply key_not_empty; [| exact H1]; lia.
Qed.

Lemma ref_Deadline_createFromDTO_toDTO (d : Z) :
  ref_Deadline_createFromDTO_accepts (ref_Deadline_toDTO d) = true ->
  ref_Deadline_createFromDTO (ref_Deadline_toDTO d) = d.
Proof.
  intros _.
  unfold ref_Deadline_createFromDTO, ref_Deadline_toDTO; cbn [fst snd].
  pose proof (Z.div_mod d (2 ^ 32)); lia.
Qed.

Lemma ref_contract : Contract (D := ref_domain) (S := ref_services).
Proof.
  constructor.
  - exact ref_hexToUint8_uint8ToHex.
  - exact ref_uint8ToHex_zeros.
  - intros isEmbedded data b; unfold loadFromBinary, fmap; simpl.
    destruct isEmbedded; intros H; apply bind_Ok in H as (x & Hx & Hb);
      injection Hb as <-; simpl.
    + exact (ref_embedded_signer _ _ Hx).
    + exact (ref_standalone_signer _ _ Hx).
Qed.

Lemma ref_roundtrip : RoundTrip (D := ref_domain) (S := ref_services).
Proof.
  constructor.
  - exact ref_uint8ToHex_accepted.
  - exact ref_standalone_decode_encode.
  - exact ref_embedded_decode_encode.
  - exact ref_Deadline_createFromDTO_toDTO.
Qed.


(** * The properties on the sample data *)

Lemma sample_payload_parsed :
  createFromPayload sample_payload false
  = Ok sample_parsed.
Proof. vm_compute; reflexivity. Qed.

Lemma sample_unsigned_payload_parsed :
  createFromPayload sample_unsigned_payload false
  = Ok sample_unsigned_parsed.
Proof. vm_compute; reflexivity. Qed.

Lemma sample_embedded_payload_parsed :
  createFromPayload sample_embedded_payload true
  = Ok sample_embedded_parsed.
Proof. vm_compute; reflexivity. Qed.

Lemma sample_unsigned_embedded_payload_parsed :
  createFromPayload sample_unsigned_embedded_payload true
  = Ok sample_unsigned_embedded_parsed.
Proof. vm_compute; reflexivity. Qed.

(** C1 on [sample_tx], whose key is in the form [Convert] writes. *)
Lemma create_roundtrip_witness :
  hexToUint8_accepts sample_key = true
  /\ standalone_encodable (createBuilder sample_tx) = true
  /\ Deadline_createFromDTO_accepts (Deadline_toDTO (deadline (base sample_tx)))
     = true
  /\ embedded_encodable (toEmbeddedTransaction sample_tx) = true
  /\ (exists tx',
         createFromPayload (serialize sample_tx) false = Ok (Standalone tx')
         /\ linkedPublicKey tx' = sample_key
         /\ startEpoch tx' = 1
         /\ endEpoch tx' = 3
         /\ linkAction tx' = 1
         /\ networkType (base tx') = 152
         /\ maxFee (base tx') = sample_fee
         /\ deadline (base tx') = 4294967296123)
  /\ (exists itx,
         createFromPayload (serializeEmbedded sample_tx) true
         = Ok (Inner itx)
         /\ linkedPublicKey (inner itx) = sample_key
         /\ startEpoch (inner itx) = 1
         /\ endEpoch (inner itx) = 3
         /\ linkAction (inner itx) = 1
         /\ networkType (base (inner itx)) = 152).
Proof.
  assert (Hhex : hexToUint8_accepts sample_key = true)
    by (vm_compute; reflexivity).
  assert (Hs : standalone_encodable (createBuilder sample_tx) = true)
    by (vm_compute; reflexivity).
  assert (Hd : Deadline_createFromDTO_accepts
                 (Deadline_toDTO (deadline (base sample_tx))) = true)
    by (vm_compute; reflexivity).
  assert (He : embedded_encodable (toEmbeddedTransaction sample_tx) = true)
    by (vm_compute; reflexivity).
  assert (Hform : uint8ToHex (hexToUint8 sample_key) = sample_key)
    by (vm_compute; reflexivity).
  pose proof (create_roundtrip (C := ref_contract) (R := ref_roundtrip)
                4294967296123 sample_key 1 3 1 152 (Some sample_fee)
                (Some sample_signature) (Some (sample_signer_key, 152)) Hhex)
    as [Hstandalone Hembedded].
  split; [exact Hhex |]; split; [exact Hs |]; split; [exact Hd |].
  split; [exact He |]; split.
  - destruct (Hstandalone Hs Hd)
      as (tx' & Hparse & _ & _ & Hkey & Hstart & Hend & Haction & Hnet
          & Hfee & Hdeadline).
    exists tx'; split; [exact Hparse |]; split; [exact (Hkey Hform) |].
    repeat split; assumption.
  - destruct (Hembedded He)
      as (itx & Hparse & _ & _ & Hkey & Hstart & Hend & Haction & Hnet).
    exists itx; split; [exact Hparse |]; split; [exact (Hkey Hform) |].
    repeat split; assumption.
Defined.

(** C1 as stated fails on a key given in lower case: the schema carries the
    link, it parses back, and the key text comes back in upper case. *)
Lemma lower_case_key_comes_back_changed :
  hexToUint8_accepts sample_lower_key = true
  /\ standalone_encodable (createBuilder sample_lower_tx) = true
  /\ createFromPayload (serialize sample_lower_tx) false
     = Ok (Standalone sample_lower_parsed)
  /\ linkedPublicKey sample_lower_parsed <> linkedPublicKey sample_lower_tx.
Proof.
  split; [vm_compute; reflexivity |].
  split; [vm_compute; reflexivity |].
  split; [vm_compute; reflexivity |].
  vm_compute; discriminate.
Qed.

(** C2 on a standalone payload with a signer key, on one whose signer key is
    zero, and on an embedded payload whose signer key is zero. *)
Lemma createFromPayload_returned_signer_witness :
  (createFromPayload sample_payload false = Ok sample_parsed
   /\ returned_signer sample_parsed
      = Some (PublicAccount_createFromPublicKey sample_signer_key 152))
  /\ (createFromPayload sample_unsigned_payload false
      = Ok sample_unsigned_parsed
      /\ returned_signer sample_unsigned_parsed = None)
  /\ (createFromPayload sample_unsigned_embedded_payload true
      = Ok sample_unsigned_embedded_parsed
      /\ returned_signer sample_unsigned_embedded_parsed
         = Some (PublicAccount_createFromPublicKey (zeros 64) 152)).
Proof.
  split; [| split]; (split; [vm_compute; reflexivity |]).
  - destruct (createFromPayload_returned_signer (C := ref_contract)
                sample_payload false _ sample_payload_parsed)
      as (b & Hb & Hstandalone & _).
    destruct (Hstandalone eq_refl) as (_ & Hnonzero).
    vm_compute in Hb; injection Hb as <-.
    vm_compute in Hnonzero |- *; apply Hnonzero.
    intros Hall; inversion Hall as [| x l Hx _]; discriminate Hx.
  - destruct (createFromPayload_returned_signer (C := ref_contract)
                sample_unsigned_payload false _
                sample_unsigned_payload_parsed)
      as (b & Hb & Hstandalone & _).
    destruct (Hstandalone eq_refl) as (Hzero & _).
    vm_compute in Hb; injection Hb as <-.
    vm_compute in Hzero |- *; apply Hzero.
    repeat constructor.
  - destruct (createFromPayload_returned_signer (C := ref_contract)
                sample_unsigned_embedded_payload true _
                sample_unsigned_embedded_payload_parsed)
      as (b & Hb & _ & Hembedded).
    vm_compute in Hb; injection Hb as <-.
    exact (Hembedded eq_refl).
Defined.

(** C2 as stated fails on an embedded payload whose signer key is zero: the
    inner transaction returned has a signer, the zero-key account. *)
Lemma zero_key_embedded_has_signer :
  createFromPayload sample_unsigned_embedded_payload true
  = Ok sample_unsigned_embedded_parsed
  /\ loadFromBinary true (hexToUint8 sample_unsigned_embedded_payload)
     = Ok sample_zero_key_builder
  /\ Forall is_zero_byte (getSignerPublicKey sample_zero_key_builder)
  /\ returned_signer sample_unsigned_embedded_parsed <> None.
Proof.
  split; [vm_compute; reflexivity |].
  split; [vm_compute; reflexivity |].
  split; [vm_compute; repeat constructor |].
  vm_compute; discriminate.
Qed.

(** C3 on the unsigned sample: the linked-key address is notified although
    nothing is signed, another address is not. *)
Lemma shouldNotifyAccount_witness :
  isSigned (base sample_unsigned_tx)
    (sample_key, 152) = false
  /\ shouldNotifyAccount sample_unsigned_tx
       (sample_key, 152) = true
  /\ shouldNotifyAccount sample_unsigned_tx
       (sample_signer_key, 152) = false.
Proof.
  destruct (shouldNotifyAccount_spec (S := ref_services)
              sample_unsigned_tx (sample_key, 152)) as (_ & Hlinked & _).
  destruct (shouldNotifyAccount_spec (S := ref_services)
              sample_unsigned_tx (sample_signer_key, 152)) as (_ & _ & Hnone).
  split; [reflexivity |]; split.
  - apply Hlinked; reflexivity.
  - apply Hnone; reflexivity.
Defined.

(** C4 on the embedded form of [sample_tx], which was built with a fee and a
    deadline. *)
Lemma createFromPayload_embedded_fee_deadline_witness :
  createFromPayload sample_embedded_payload true
  = Ok sample_embedded_parsed
  /\ maxFee (base (parsed_transaction sample_embedded_parsed))
     = UInt64_new (0, 0)
  /\ deadline (base (parsed_transaction sample_embedded_parsed))
     = Deadline_createEmtpy.
Proof.
  split; [vm_compute; reflexivity |].
  destruct (createFromPayload_embedded_fee_deadline (S := ref_services)
              sample_embedded_payload _ sample_embedded_payload_parsed)
    as (_ & Hfee & _ & Hdeadline).
  split; [exact Hfee | exact Hdeadline].
Defined.



(** C9 on an embedded payload whose signer key is zero. *)
Lemma createFromPayload_embedded_wrapper_witness :
  exists itx,
    createFromPayload sample_unsigned_embedded_payload true
    = Ok (Inner itx)
    /\ signer (base (inner itx)) = None
    /\ boundSigner itx
       = PublicAccount_createFromPublicKey
           "0000000000000000000000000000000000000000000000000000000000000000"
           152.
Proof.
  destruct (createFromPayload_embedded_wrapper (C := ref_contract)
              sample_unsigned_embedded_payload _
              sample_unsigned_embedded_payload_parsed)
    as (b & tx & Hb & Hr & Hzero).
  vm_compute in Hb; injection Hb as <-.
  vm_compute in Hr; injection Hr as <-.
  eexists; split; [vm_compute; reflexivity |].
  split; [| vm_compute; reflexivity].
  vm_compute in Hzero |- *; apply Hzero.
  repeat constructor.
Defined.

(** C10 on [sample_payload]. *)
Lemma transactionInfo_unset_witness :
  createFromPayload sample_payload false
  = Ok sample_parsed
  /\ transactionInfo (base (parsed_transaction sample_parsed)) = None.
Proof.
  split; [vm_compute; reflexivity |].
  destruct (transactionInfo_unset (S := ref_services)) as (_ & Hunset).
  exact (Hunset sample_payload false _ sample_payload_parsed).
Defined.

(** * Further properties of the class *)

Lemma only_zero_chars_zeros (s : string) :
  only_zero_chars s = true -> s = zeros (String.length s).
Proof.
  induction s as [| c rest IH]; simpl; [reflexivity |].
  intros H; apply andb_true_iff in H as [Hc Hrest].
  apply Ascii.eqb_eq in Hc; subst c.
  rewrite <- (IH Hrest); reflexivity.
Qed.

Lemma only_zero_chars_of_zeros (n : nat) : only_zero_chars (zeros n) = true.
Proof.
  induction n as [| m IH]; simpl; [reflexivity | exact IH].
Qed.

(** What the regular expression accepts. *)
Lemma match_zeros_run (s : string) :
  match_zeros s = true <-> exists n, s = zeros (S n).
Proof.
  split.
  - destruct s as [| c rest]; [discriminate |].
    intros H; exists (String.length rest).
    exact (only_zero_chars_zeros (String c rest) H).
  - intros [n ->]; exact (only_zero_chars_of_zeros (S n)).
Qed.

Section FurtherProperties.

Context {Address PublicAccount TransactionInfo Deadline DecodeError : Type}.
Context {D : Domain Address PublicAccount Deadline}.
Context {S : Services Address PublicAccount TransactionInfo Deadline
               DecodeError}.

Lemma loadFromBinary_false data b :
  loadFromBinary false data = Ok (StandaloneBuilder b) ->
  standalone_loadFromBinary data = Ok b.
Proof.
  unfold loadFromBinary, fmap.
  destruct (standalone_loadFromBinary data) as [s | err]; simpl;
    [intros H; congruence | discriminate].
Qed.


(** X2.  The flag decides the form of the result: a bare transaction without
    it, a wrapped one with it.  The account a wrapper is bound to is the
    wrapped transaction's own signer whenever that signer is set. *)
Theorem createFromPayload_form :
  forall payload isEmbedded r,
    createFromPayload payload isEmbedded = Ok r ->
    match r with
    | Standalone _ => isEmbedded = false
    | Inner itx =>
        isEmbedded = true
        /\ (signer (base (inner itx)) = None
            \/ signer (base (inner itx)) = Some (boundSigner itx))
    end.
Proof.
  intros payload isEmbedded r H.
  apply createFromPayload_Ok in H as (b & Hb & ->).
  destruct isEmbedded.
  - destruct (loadFromBinary_embedded _ _ Hb) as (e & ->); simpl.
    split; [reflexivity |].
    destruct (match_zeros (uint8ToHex (eb_signerPublicKey e)));
      [left | right]; reflexivity.
  - destruct (loadFromBinary_standalone _ _ Hb) as (s & ->); reflexivity.
Qed.

(** X3.  The value [createFromPayload] returns has no signer exactly when
    the payload was parsed as standalone and the hex text of the decoded
    signer key is a run of one or more characters [0]. *)
Theorem createFromPayload_signer_unset_iff :
  forall payload isEmbedded r,
    createFromPayload payload isEmbedded = Ok r ->
    exists b,
      loadFromBinary isEmbedded (hexToUint8 payload) = Ok b
      /\ (returned_signer r = None
          <-> isEmbedded = false
              /\ exists n,
                   uint8ToHex (getSignerPublicKey b) = zeros (Datatypes.S n)).
Proof.
  intros payload isEmbedded r H.
  apply createFromPayload_Ok in H as (b & Hb & ->).
  exists b; split; [exact Hb |].
  destruct isEmbedded.
  - destruct (loadFromBinary_embedded _ _ Hb) as (e & ->); simpl.
    split; [discriminate | intros [Hfalse _]; discriminate Hfalse].
  - destruct (loadFromBinary_standalone _ _ Hb) as (s & ->); simpl.
    rewrite <- match_zeros_run.
    destruct (match_zeros (uint8ToHex (sb_signerPublicKey s)));
      split; try congruence; try (intros [_ Hz]; congruence); auto.
Qed.

Section WithContract.

Context {C : Contract (D := D) (S := S)}.

(** X6.  Building the builder of a parsed transaction gives back the body
    the payload decoded to: network, fee, linked key, epochs and link action
    for the standalone form, the same without the fee for the embedded
    form; the type tag is [VOTING_KEY_LINK] whatever the payload held. *)
Theorem parse_then_build :
  (forall payload tx,
      createFromPayload payload false = Ok (Standalone tx) ->
      exists b,
        standalone_loadFromBinary (hexToUint8 payload) = Ok b
        /\ sb_network (createBuilder tx) = sb_network b
        /\ sb_type (createBuilder tx) = VOTING_KEY_LINK
        /\ sb_fee (createBuilder tx) = sb_fee b
        /\ sb_linkedPublicKey (createBuilder tx) = sb_linkedPublicKey b
        /\ sb_startEpoch (createBuilder tx) = sb_startEpoch b
        /\ sb_endEpoch (createBuilder tx) = sb_endEpoch b
        /\ sb_linkAction (createBuilder tx) = sb_linkAction b)
  /\ (forall payload itx,
         createFromPayload payload true = Ok (Inner itx) ->
         exists b,
           loadFromBinary true (hexToUint8 payload) = Ok (EmbeddedBuilder b)
           /\ eb_network (toEmbeddedTransaction (inner itx)) = eb_network b
           /\ eb_type (toEmbeddedTransaction (inner itx)) = VOTING_KEY_LINK
           /\ eb_linkedPublicKey (toEmbeddedTransaction (inner itx))
              = eb_linkedPublicKey b
           /\ eb_startEpoch (toEmbeddedTransaction (inner itx))
              = eb_startEpoch b
           /\ eb_endEpoch (toEmbeddedTransaction (inner itx)) = eb_endEpoch b
           /\ eb_linkAction (toEmbeddedTransaction (inner itx))
              = eb_linkAction b).
Proof.
  split.
  - intros payload tx H.
    apply createFromPayload_Ok in H as (b & Hb & Hr).
    destruct (loadFromBinary_standalone _ _ Hb) as (s & ->).
    exists s; split; [exact (loadFromBinary_false _ _ Hb) |].
    injection Hr as ->; simpl.
    rewrite hexToUint8_uint8ToHex.
    repeat split.
    destruct (sb_fee s); reflexivity.
  - intros payload itx H.
    apply createFromPayload_Ok in H as (b & Hb & Hr).
    destruct (loadFromBinary_embedded _ _ Hb) as (e & ->).
    exists e; split; [exact Hb |].
    injection Hr as ->; simpl.
    rewrite hexToUint8_uint8ToHex.
    repeat split.
Qed.

End WithContract.

End FurtherProperties.

(** * The further properties on the sample data *)


Lemma sample_payload_standalone :
  createFromPayload sample_payload false
  = Ok (Standalone (parsed_transaction sample_parsed)).
Proof. vm_compute; reflexivity. Qed.


(** X2 on the embedded form of the signed sample. *)
Lemma createFromPayload_form_witness :
  createFromPayload sample_embedded_payload true = Ok sample_embedded_parsed
  /\ match sample_embedded_parsed with
     | Standalone _ => true = false
     | Inner itx =>
         true = true
         /\ (signer (base (inner itx)) = None
             \/ signer (base (inner itx)) = Some (boundSigner itx))
     end.
Proof.
  split; [exact sample_embedded_payload_parsed |].
  exact (createFromPayload_form sample_embedded_payload true _
           sample_embedded_payload_parsed).
Defined.

(** X3 on the unsigned sample, whose signer key is 32 zero bytes. *)
Lemma createFromPayload_signer_unset_iff_witness :
  createFromPayload sample_unsigned_payload false = Ok sample_unsigned_parsed
  /\ exists b,
       loadFromBinary false (hexToUint8 sample_unsigned_payload) = Ok b
       /\ (returned_signer sample_unsigned_parsed = None
           <-> false = false
               /\ exists n, uint8ToHex (getSignerPublicKey b) = zeros (S n)).
Proof.
  split; [exact sample_unsigned_payload_parsed |].
  exact (createFromPayload_signer_unset_iff sample_unsigned_payload false _
           sample_unsigned_payload_parsed).
Defined.

(** X6 on the signed sample. *)
Lemma parse_then_build_witness :
  createFromPayload sample_payload false
  = Ok (Standalone (parsed_transaction sample_parsed))
  /\ exists b,
       standalone_loadFromBinary (hexToUint8 sample_payload) = Ok b
       /\ sb_network (createBuilder (parsed_transaction sample_parsed))
          = sb_network b
       /\ sb_type (createBuilder (parsed_transaction sample_parsed))
          = VOTING_KEY_LINK
       /\ sb_fee (createBuilder (parsed_transaction sample_parsed))
          = sb_fee b
       /\ sb_linkedPublicKey
            (createBuilder (parsed_transaction sample_parsed))
          = sb_linkedPublicKey b
       /\ sb_startEpoch (createBuilder (parsed_transaction sample_parsed))
          = sb_startEpoch b
       /\ sb_endEpoch (createBuilder (parsed_transaction sample_parsed))
          = sb_endEpoch b
       /\ sb_linkAction (createBuilder (parsed_transaction sample_parsed))
          = sb_linkAction b.
Proof.
  split; [exact sample_payload_standalone |].
  destruct (parse_then_build (C := ref_contract)) as (Hstandalone & _).
  exact (Hstandalone sample_payload _ sample_payload_standalone).
Defined.
